(** * Splunkbase app information fetcher: a shallow embedding

    The program under study is [splunkbase_urls.py]: two functions over the
    [requests] HTTP library.  [get_splunkbase_app_info] issues two GET
    requests, reads two JSON documents and assembles a triple;
    [get_multiple_splunkbase_urls] loops over identifiers and joins the
    download URLs it collected.

    The embedding keeps what the Python code manipulates:
    - decoded JSON documents are Python values ([value]); [None] is [VNone];
    - a Python exception is a value of [exn]; a computation either returns or
      raises, and threads the state of the outside world and the lines
      printed so far ([M]);
    - the network is a parameter: a GET is any function from a URL and a
      world to an outcome and a new world. *)

From Stdlib Require Import ZArith String Ascii List Bool Lia DecimalString.
Import ListNotations.
Open Scope string_scope.
Open Scope Z_scope.

Set Warnings "-register-all".

(** ** Python values, as [json.loads] produces them *)

(** A float is carried by the text [repr] prints for it (["1.5"], ["1e+22"],
    ["nan"]); an object is an association list in insertion order with
    distinct keys, looked up from the front.  A character of a [string] is a
    code point below 256. *)
Inductive value : Type :=
| VNone
| VBool (b : bool)
| VInt (n : Z)
| VFloat (repr : string)
| VStr (s : string)
| VList (items : list value)
| VDict (entries : list (string * value)).

(** [type(v).__name__] *)
Definition type_name (v : value) : string :=
  match v with
  | VNone => "NoneType"
  | VBool _ => "bool"
  | VInt _ => "int"
  | VFloat _ => "float"
  | VStr _ => "str"
  | VList _ => "list"
  | VDict _ => "dict"
  end.

(** [bool(v)]: the truth value tested by [if v] and by [and]. *)
Definition truthy (v : value) : bool :=
  match v with
  | VNone => false
  | VBool b => b
  | VInt n => negb (n =? 0)
  | VFloat r => negb (String.eqb r "0.0" || String.eqb r "-0.0")
  | VStr s => negb (String.eqb s EmptyString)
  | VList l => match l with [] => false | _ => true end
  | VDict d => match d with [] => false | _ => true end
  end.

(** [isinstance(v, list)] *)
Definition isinstance_list (v : value) : bool :=
  match v with VList _ => true | _ => false end.

(** [v is not None]: the slot is present. *)
Definition is_present (v : value) : bool :=
  match v with VNone => false | _ => true end.

(** Lookup in a dict. *)
Fixpoint dict_lookup (k : string) (d : list (string * value)) : option value :=
  match d with
  | [] => None
  | (k', v) :: d' => if String.eqb k k' then Some v else dict_lookup k d'
  end.

(** *** Text of a value: [repr] and [str] *)

Definition dquote : ascii := ascii_of_nat 34.
Definition squote : ascii := ascii_of_nat 39.
Definition backslash : ascii := ascii_of_nat 92.

Definition hex_digit (n : nat) : ascii :=
  match n with
  | 0 => "0" | 1 => "1" | 2 => "2" | 3 => "3" | 4 => "4" | 5 => "5"
  | 6 => "6" | 7 => "7" | 8 => "8" | 9 => "9" | 10 => "a" | 11 => "b"
  | 12 => "c" | 13 => "d" | 14 => "e" | _ => "f"
  end%nat%char.

Fixpoint occurs (c : ascii) (s : string) : bool :=
  match s with
  | EmptyString => false
  | String c' s' => Ascii.eqb c c' || occurs c s'
  end.

(** One character inside a string literal delimited by [q]. *)
Definition repr_char (q c : ascii) : string :=
  let n := nat_of_ascii c in
  if Ascii.eqb c q || Ascii.eqb c backslash
  then String backslash (String c EmptyString)
  else if Nat.eqb n 9 then String backslash "t"
  else if Nat.eqb n 10 then String backslash "n"
  else if Nat.eqb n 13 then String backslash "r"
  else if Nat.ltb n 32 || (Nat.leb 127 n && Nat.leb n 160) || Nat.eqb n 173
  then String backslash
         (String "x"
            (String (hex_digit (n / 16))
               (String (hex_digit (n mod 16)) EmptyString)))
  else String c EmptyString.

Fixpoint repr_chars (q : ascii) (s : string) : string :=
  match s with
  | EmptyString => EmptyString
  | String c s' => repr_char q c ++ repr_chars q s'
  end.

(** [repr] of a [str]: single quotes, unless the text has a single quote and
    no double quote. *)
Definition repr_str (s : string) : string :=
  let q :=
    if occurs squote s && negb (occurs dquote s) then dquote else squote in
  String q (repr_chars q s ++ String q EmptyString).

Definition str_int (n : Z) : string := NilZero.string_of_int (Z.to_int n).

Fixpoint py_repr (v : value) : string :=
  match v with
  | VNone => "None"
  | VBool true => "True"
  | VBool false => "False"
  | VInt n => str_int n
  | VFloat r => r
  | VStr s => repr_str s
  | VList l => "[" ++ String.concat ", " (map py_repr l) ++ "]"
  | VDict d =>
      "{" ++ String.concat ", "
               (map (fun kv => repr_str (fst kv) ++ ": " ++ py_repr (snd kv)) d)
          ++ "}"
  end.

(** [str(v)], which is what [{v}] in an f-string inserts. *)
Definition py_str (v : value) : string :=
  match v with
  | VStr s => s
  | _ => py_repr v
  end.

(** ** Exceptions *)

(** [RequestException] stands for the class and its subclasses ([HTTPError],
    [ConnectionError], [Timeout], [JSONDecodeError], ...): the program only
    tests membership in the class.  Each exception carries what [str(e)]
    needs. *)
Inductive exn : Type :=
| RequestException (msg : string)
| KeyError (key : value)
| IndexError (msg : string)
| AttributeError (msg : string)
| TypeError (msg : string).

(** [str(e)] *)
Definition str_exn (e : exn) : string :=
  match e with
  | RequestException m => m
  | KeyError k => py_repr k
  | IndexError m => m
  | AttributeError m => m
  | TypeError m => m
  end.

(** ** The [requests] library, as far as the program uses it *)

(** A [Response]: its status line, the URL it answers, and what [.json()]
    gives: the decoded document, or the message of the [JSONDecodeError]
    raised on a body that is not JSON. *)
Record Response : Type := mkResponse {
  status_code : Z;
  reason : string;
  resp_url : string;
  body_json : string + value
}.

(** What [requests.get] does: it raises a [RequestException] (network
    failure, timeout, bad URL), given by its message, or returns a
    response. *)
Definition get_outcome : Type := (string + Response)%type.

(** The message of the [HTTPError] that [raise_for_status] raises, if any:
    statuses 400 to 599 are errors, all others pass. *)
Definition http_error_msg (r : Response) : option string :=
  if (400 <=? status_code r) && (status_code r <? 500)
  then Some (str_int (status_code r) ++ " Client Error: " ++ reason r
               ++ " for url: " ++ resp_url r)
  else if (500 <=? status_code r) && (status_code r <? 600)
  then Some (str_int (status_code r) ++ " Server Error: " ++ reason r
               ++ " for url: " ++ resp_url r)
  else None.

(** ** Computations: state passing with exceptions *)

(** The state: the outside world the requests talk to, and the lines
    [print] has written, oldest first. *)
Record State (World : Type) : Type := mkState {
  world : World;
  stdout : list string
}.

Arguments mkState {World} _ _.
Arguments world {World} _.
Arguments stdout {World} _.

Definition M (S A : Type) : Type := S -> (exn + A) * S.

Definition ret {S A : Type} (a : A) : M S A := fun s => (inr a, s).

Definition raise {S A : Type} (e : exn) : M S A := fun s => (inl e, s).

Definition bind {S A B : Type} (c : M S A) (k : A -> M S B) : M S B :=
  fun s =>
    match c s with
    | (inr a, s') => k a s'
    | (inl e, s') => (inl e, s')
    end.

(** [try: body except ...: handler]; a handler re-raises what no [except]
    clause matches. *)
Definition try_except {S A : Type} (body : M S A) (handler : exn -> M S A)
  : M S A :=
  fun s =>
    match body s with
    | (inr a, s') => (inr a, s')
    | (inl e, s') => handler e s'
    end.

Declare Scope py_scope.
Delimit Scope py_scope with py.
Notation "x <- c ;; k" := (bind c (fun x => k))
  (at level 61, c at next level, right associativity) : py_scope.
Notation "c ;; k" := (bind c (fun _ => k))
  (at level 61, right associativity) : py_scope.
Open Scope py_scope.

(** [print(line)] *)
Definition print {W : Type} (line : string) : M (State W) unit :=
  fun s => (inr tt, mkState (world s) (stdout s ++ [line])).

(** [r.raise_for_status()] *)
Definition raise_for_status {S : Type} (r : Response) : M S unit :=
  match http_error_msg r with
  | Some m => raise (RequestException m)
  | None => ret tt
  end.

(** [r.json()]: the error raised on a body that is not JSON is the
    library's [JSONDecodeError], a [RequestException]. *)
Definition json {S : Type} (r : Response) : M S value :=
  match body_json r with
  | inr v => ret v
  | inl m => raise (RequestException m)
  end.

(** [obj.get(key, default)]: only a dict has the method. *)
Definition method_get {S : Type} (obj : value) (key : string) (default : value)
  : M S value :=
  match obj with
  | VDict d =>
      ret (match dict_lookup key d with Some v => v | None => default end)
  | _ =>
      raise (AttributeError
               ("'" ++ type_name obj ++ "' object has no attribute 'get'"))
  end.

(** [obj[i]] for a literal index [i >= 0]. *)
Definition getitem_int {S : Type} (obj : value) (i : nat) : M S value :=
  match obj with
  | VList l =>
      match nth_error l i with
      | Some v => ret v
      | None => raise (IndexError "list index out of range")
      end
  | VStr s =>
      match String.get i s with
      | Some c => ret (VStr (String c EmptyString))
      | None => raise (IndexError "string index out of range")
      end
  | VDict _ => raise (KeyError (VInt (Z.of_nat i)))
  | _ =>
      raise (TypeError
               ("'" ++ type_name obj ++ "' object is not subscriptable"))
  end.

(** [obj[key]] for a literal string [key]. *)
Definition getitem_str {S : Type} (obj : value) (key : string) : M S value :=
  match obj with
  | VDict d =>
      match dict_lookup key d with
      | Some v => ret v
      | None => raise (KeyError (VStr key))
      end
  | VList _ =>
      raise (TypeError "list indices must be integers or slices, not str")
  | VStr _ => raise (TypeError "string indices must be integers, not 'str'")
  | _ =>
      raise (TypeError
               ("'" ++ type_name obj ++ "' object is not subscriptable"))
  end.

(** [sep.join(items)]: every item must be a [str]. *)
Fixpoint join_items (i : nat) (items : list value) : exn + list string :=
  match items with
  | [] => inr []
  | VStr s :: rest =>
      match join_items (S i) rest with
      | inr ss => inr (s :: ss)
      | inl e => inl e
      end
  | v :: _ =>
      inl (TypeError
             ("sequence item " ++ str_int (Z.of_nat i)
                ++ ": expected str instance, " ++ type_name v ++ " found"))
  end.

Definition str_join {S : Type} (sep : string) (items : list value)
  : M S string :=
  match join_items 0 items with
  | inr ss => ret (String.concat sep ss)
  | inl e => raise e
  end.

(** ** The program *)

Definition app_url (app_id : string) : string :=
  "https://splunkbase.splunk.com/api/v1/app/" ++ app_id.

Definition release_url (app_id : string) : string :=
  "https://splunkbase.splunk.com/api/v1/app/" ++ app_id ++ "/release".

Definition download_url (app_id : string) (version : value) : string :=
  "https://splunkbase.splunk.com/app/" ++ app_id ++ "/release/"
    ++ py_str version ++ "/download/".

(** The three diagnostics the function prints. *)
Definition msg_unexpected (app_id : string) : string :=
  "Error: Unexpected response structure for app " ++ app_id.

Definition msg_request (app_id : string) (e : exn) : string :=
  "Error fetching details for app " ++ app_id ++ ": " ++ str_exn e.

Definition msg_structure (app_id : string) (e : exn) : string :=
  "Unexpected response structure for app " ++ app_id ++ ": " ++ str_exn e.

(** [release_data and isinstance(release_data, list) and len(release_data) > 0]:
    [and] stops at the first false operand, so [len] only sees a list. *)
Definition has_release (release_data : value) : bool :=
  truthy release_data
  && match release_data with
     | VList l => 0 <? Z.of_nat (length l)
     | _ => false
     end.

Definition triple : Type := (value * value * value)%type.

(** ** What the properties speak about *)

(** The download URLs that are present in a list of results, in order. *)
Definition present_urls (results : list triple) : list string :=
  map py_str (filter is_present (map snd results)).

(** The three shapes a result may have: all present, only the name, nothing. *)
Definition shape (t : triple) : bool * bool * bool :=
  (is_present (fst (fst t)), is_present (snd (fst t)), is_present (snd t)).

Definition three_shapes (t : triple) : Prop :=
  shape t = (true, true, true) \/ shape t = (true, false, false)
  \/ shape t = (false, false, false).

(** [app_data.get("title", "Unknown")] on an object. *)
Definition title_or_unknown (d : list (string * value)) : value :=
  match dict_lookup "title" d with
  | Some t => t
  | None => VStr "Unknown"
  end.

Definition all_absent : triple := (VNone, VNone, VNone).

(** A request failed: [requests.get] raised, or [raise_for_status] did. *)
Definition request_error (o : get_outcome) : option exn :=
  match o with
  | inl m => Some (RequestException m)
  | inr r => option_map RequestException (http_error_msg r)
  end.

(** What the status check and the decoding make of the outcome of a GET. *)
Definition decode (o : get_outcome) : exn + value :=
  match o with
  | inl m => inl (RequestException m)
  | inr r =>
      match http_error_msg r with
      | Some m => inl (RequestException m)
      | None =>
          match body_json r with
          | inl m => inl (RequestException m)
          | inr v => inr v
          end
      end
  end.

(** A status outside 200..299. *)
Definition non_2xx (r : Response) : bool :=
  negb ((200 <=? status_code r) && (status_code r <? 300)).

(** The release document makes the function return from inside [try]: it is
    not a non-empty list, or its element 0 is an object with a [name]. *)
Definition release_readable (release_data : value) : bool :=
  negb (has_release release_data)
  || match release_data with
     | VList (VDict first :: _) =>
         match dict_lookup "name" first with Some _ => true | None => false end
     | _ => false
     end.

Definition is_key_or_index_error (e : exn) : bool :=
  match e with
  | KeyError _ | IndexError _ => true
  | _ => false
  end.

(** *** The lookup as a table *)

(** Whether the lookup goes on to the release request: the app request gave
    an object. *)
Definition asks_release (first : get_outcome) : bool :=
  match decode first with
  | inr (VDict _) => true
  | _ => false
  end.

(** What a lookup gives and prints, read off the outcomes of its two GETs:
    the result or the exception that leaves it, and the lines printed. *)
Definition lookup_table (app_id : string) (first second : get_outcome)
  : (exn + triple) * list string :=
  match decode first with
  | inl e => (inr all_absent, [msg_request app_id e])
  | inr (VDict d) =>
      match decode second with
      | inl e => (inr all_absent, [msg_request app_id e])
      | inr (VList (VDict f :: _)) =>
          match dict_lookup "name" f with
          | Some version =>
              (inr (title_or_unknown d, version,
                    VStr (download_url app_id version)), [])
          | None =>
              (inr all_absent,
               [msg_structure app_id (KeyError (VStr "name"))])
          end
      | inr (VList (VList _ :: _)) =>
          (inl (TypeError "list indices must be integers or slices, not str"),
           [])
      | inr (VList (VStr _ :: _)) =>
          (inl (TypeError "string indices must be integers, not 'str'"), [])
      | inr (VList (x :: _)) =>
          (inl (TypeError
                  ("'" ++ type_name x ++ "' object is not subscriptable")),
           [])
      | inr _ =>
          (inr (title_or_unknown d, VNone, VNone), [msg_unexpected app_id])
      end
  | inr v =>
      (inl (AttributeError
              ("'" ++ type_name v ++ "' object has no attribute 'get'")), [])
  end.

(** Two comma-joined lists as one: an empty one adds nothing, not even a
    comma. *)
Definition join_two (a b : string) : string :=
  if String.eqb a EmptyString then b
  else if String.eqb b EmptyString then a
  else a ++ "," ++ b.

(** *** The text the main block prints *)

Definition nl : string := String (ascii_of_nat 10) EmptyString.

(** [s * n] *)
Fixpoint str_mul (s : string) (n : nat) : string :=
  match n with
  | O => EmptyString
  | S n' => s ++ str_mul s n'
  end.

(** The lines of the report on one identifier, from the result of its
    lookup. *)
Definition report_lines (app_id : string) (t : triple) : list string :=
  let '(name, version, url) := t in
  if truthy name && truthy url
  then [nl ++ "App ID: " ++ app_id; "Name: " ++ py_str name;
        "Version: " ++ py_str version; "URL: " ++ py_str url]
  else [nl ++ "App ID: " ++ app_id ++ " - Error fetching info"].

(** The four fixed lines of the main block. *)
Definition heading : string := "Splunkbase App Information:" ++ nl.
Definition rule : string := str_mul "=" 80.
Definition closing_rule : string := nl ++ str_mul "=" 80.
Definition urls_label : string :=
  nl ++ "Docker Compose SPLUNK_APPS_URL format:".

(** *** A server that answers by the URL alone *)

(** The result and the lines of the lookup of [app_id] on a server that
    answers [answer url] to every request for [url]. *)
Definition info (answer : string -> get_outcome) (app_id : string)
  : (exn + triple) * list string :=
  lookup_table app_id (answer (app_url app_id)) (answer (release_url app_id)).

Definition returns (answer : string -> get_outcome) (app_id : string) : bool :=
  match fst (info answer app_id) with
  | inr _ => true
  | inl _ => false
  end.

Definition result_list (answer : string -> get_outcome)
  (app_ids : list string) : list triple :=
  flat_map (fun app_id =>
              match fst (info answer app_id) with
              | inr t => [t]
              | inl _ => []
              end) app_ids.

(** All that the main block prints on such a server, when every lookup
    returns: the heading, for each identifier the diagnostic of its lookup
    and its report, the closing lines, the diagnostics of the second round
    of lookups, the joined URLs. *)
Definition main_output (answer : string -> get_outcome)
  (app_ids : list string) : list string :=
  ([heading; rule]
   ++ flat_map (fun app_id =>
                  snd (info answer app_id)
                  ++ match fst (info answer app_id) with
                     | inr t => report_lines app_id t
                     | inl _ => []
                     end) app_ids
   ++ [closing_rule; urls_label]
   ++ flat_map (fun app_id => snd (info answer app_id)) app_ids
   ++ [String.concat "," (present_urls (result_list answer app_ids))])%list.

(** *** A world that records the URLs asked *)

(** Any network, with the list of the URLs requested so far, oldest
    first. *)
Definition logged {W : Type} (http_get : string -> W -> get_outcome * W)
  (url : string) (wl : W * list string) : get_outcome * (W * list string) :=
  (fst (http_get url (fst wl)),
   (snd (http_get url (fst wl)), (snd wl ++ [url])%list)).


(** A server that answers by the URL alone and keeps no state. *)
Definition table_get (answer : string -> get_outcome) (url : string) (w : unit)
  : get_outcome * unit :=
  (answer url, w).

(** ** A scripted network, for concrete runs *)

(** The world is the list of outcomes still to be served, one per request;
    a served response answers the URL that was asked.  Past the end of the
    script the connection fails. *)
Definition served (url : string) (o : get_outcome) : get_outcome :=
  match o with
  | inr r => inr (mkResponse (status_code r) (reason r) url (body_json r))
  | inl m => inl m
  end.

Definition mock_get (url : string) (script : list get_outcome)
  : get_outcome * list get_outcome :=
  match script with
  | o :: rest => (served url o, rest)
  | [] => (inl "Connection refused", [])
  end.

Definition status_response (code : Z) (why : string) (v : value)
  : get_outcome :=
  inr (mkResponse code why EmptyString (inr v)).

Definition ok_response (v : value) : get_outcome := status_response 200 "OK" v.

Definition start (script : list get_outcome) : State (list get_outcome) :=
  mkState script [].

Definition app_doc : value := VDict [("title", VStr "Lookup Editor")].
Definition release_doc : value :=
  VList [VDict [("name", VStr "4.0.4")]; VDict [("name", VStr "4.0.3")]].
Definition null_title_doc : value := VDict [("title", VNone)].

Definition server_error : get_outcome :=
  status_response 500 "Internal Server Error" VNone.
Definition not_found : get_outcome := status_response 404 "Not Found" VNone.

(** The text of the two status errors, for the URL asked. *)
Definition server_error_text (url : string) : string :=
  "500 Server Error: Internal Server Error for url: " ++ url.
Definition not_found_text (url : string) : string :=
  "404 Client Error: Not Found for url: " ++ url.

Definition lookup_editor_url : string :=
  "https://splunkbase.splunk.com/app/1603/release/4.0.4/download/".

(** An app document served under the status 300, then the release list. *)
Definition multiple_choices_script : list get_outcome :=
  [status_response 300 "Multiple Choices" app_doc; ok_response release_doc].

(** The responses to two lookups of one identifier, the same both times, and
    the state the first of the two lookups leaves. *)
Definition twice_script : list get_outcome :=
  [ok_response app_doc; ok_response (VList []);
   ok_response app_doc; ok_response (VList [])].

Definition after_first_call : State (list get_outcome) :=
  mkState [ok_response app_doc; ok_response (VList [])]
    ["Error: Unexpected response structure for app 1603"].

(** An app document whose title is the empty string. *)
Definition empty_title_doc : value := VDict [("title", VStr EmptyString)].

(** A server that knows 1603 and nothing else. *)
Definition lookup_editor_only (url : string) : get_outcome :=
  if String.eqb url (app_url "1603") then ok_response app_doc
  else if String.eqb url (release_url "1603") then ok_response release_doc
  else served url not_found.

(** The same server, which also answers an array for the app document of
    9. *)
Definition array_for_nine (url : string) : get_outcome :=
  if String.eqb url (app_url "9") then ok_response (VList [])
  else lookup_editor_only url.

Section Client.

Context {World : Type}.

(** [requests.get(url, timeout=10)] against the world; a timeout is one of
    the failures. *)
Variable http_get : string -> World -> get_outcome * World.

Definition requests_get (url : string) : M (State World) Response :=
  fun s =>
    match http_get url (world s) with
    | (inr r, w') => (inr r, mkState w' (stdout s))
    | (inl m, w') => (inl (RequestException m), mkState w' (stdout s))
    end.

(** The body of the [try] statement. *)
Definition try_block (app_id : string) : M (State World) triple :=
  app_response <- requests_get (app_url app_id) ;;
  raise_for_status app_response ;;
  app_data <- json app_response ;;
  app_name <- method_get app_data "title" (VStr "Unknown") ;;
  release_response <- requests_get (release_url app_id) ;;
  raise_for_status release_response ;;
  release_data <- json release_response ;;
  if has_release release_data then
    first <- getitem_int release_data 0 ;;
    version <- getitem_str first "name" ;;
    ret (app_name, version, VStr (download_url app_id version))
  else
    print (msg_unexpected app_id) ;;
    ret (app_name, VNone, VNone).

(** The two [except] clauses. *)
Definition except_clauses (app_id : string) (e : exn)
  : M (State World) triple :=
  match e with
  | RequestException _ =>
      print (msg_request app_id e) ;;
      ret (VNone, VNone, VNone)
  | KeyError _ | IndexError _ =>
      print (msg_structure app_id e) ;;
      ret (VNone, VNone, VNone)
  | _ => raise e
  end.

Definition get_splunkbase_app_info (app_id : string)
  : M (State World) triple :=
  try_except (try_block app_id) (except_clauses app_id).

(** The [for] loop of [get_multiple_splunkbase_urls], from the list [urls]
    built so far. *)
Fixpoint for_app_ids (app_ids : list string) (urls : list value)
  : M (State World) (list value) :=
  match app_ids with
  | [] => ret urls
  | app_id :: rest =>
      info <- get_splunkbase_app_info app_id ;;
      let url := snd info in
      for_app_ids rest (if truthy url then urls ++ [url] else urls)
  end.

Definition get_multiple_splunkbase_urls (app_ids : list string)
  : M (State World) string :=
  urls <- for_app_ids app_ids [] ;;
  str_join "," urls.

(** One request as both endpoints go through it: the GET, the status
    check, the decoding. *)
Definition fetch (url : string) : M (State World) value :=
  r <- requests_get url ;;
  raise_for_status r ;;
  json r.

(** The value under [title] in the app document, when the app endpoint
    answers with an object that has one. *)
Definition app_title (app_id : string) (s : State World) : option value :=
  match fetch (app_url app_id) s with
  | (inr (VDict d), _) => dict_lookup "title" d
  | _ => None
  end.

(** The value under [name] in element 0 of the release list, when both
    endpoints answer and element 0 is an object that has one. *)
Definition latest_name (app_id : string) (s : State World) : option value :=
  match fetch (app_url app_id) s with
  | (inr _, s1) =>
      match fetch (release_url app_id) s1 with
      | (inr (VList (VDict first :: _)), _) => dict_lookup "name" first
      | _ => None
      end
  | _ => None
  end.

(** The outcomes of the two GETs of one lookup. *)
Definition first_outcome (app_id : string) (s : State World) : get_outcome :=
  fst (http_get (app_url app_id) (world s)).

Definition second_outcome (app_id : string) (s : State World) : get_outcome :=
  fst (http_get (release_url app_id)
         (snd (http_get (app_url app_id) (world s)))).

(** The lookups of a sequence of identifiers, one after the other. *)
Fixpoint lookups (app_ids : list string) : M (State World) (list triple) :=
  match app_ids with
  | [] => ret []
  | app_id :: rest =>
      t <- get_splunkbase_app_info app_id ;;
      ts <- lookups rest ;;
      ret (t :: ts)
  end.

(** The [for] loop of the main block. *)
Fixpoint report_loop (app_ids : list string) : M (State World) unit :=
  match app_ids with
  | [] => ret tt
  | app_id :: rest =>
      result <- get_splunkbase_app_info app_id ;;
      let '(name, version, url) := result in
      (if truthy name && truthy url then
         print (nl ++ "App ID: " ++ app_id) ;;
         print ("Name: " ++ py_str name) ;;
         print ("Version: " ++ py_str version) ;;
         print ("URL: " ++ py_str url)
       else
         print (nl ++ "App ID: " ++ app_id ++ " - Error fetching info")) ;;
      report_loop rest
  end.

(** The block under [if __name__ == "__main__"], for the list [app_ids] it
    starts with. *)
Definition main_block (app_ids : list string) : M (State World) unit :=
  print ("Splunkbase App Information:" ++ nl) ;;
  print (str_mul "=" 80) ;;
  report_loop app_ids ;;
  print (nl ++ str_mul "=" 80) ;;
  print (nl ++ "Docker Compose SPLUNK_APPS_URL format:") ;;
  urls <- get_multiple_splunkbase_urls app_ids ;;
  print urls.

Definition main : M (State World) unit :=
  main_block ["4353"; "7931"; "1876"; "833"].

(** The world a lookup leaves: after the app request, and after the release
    request when it is made. *)
Definition world_after (app_id : string) (s : State World) : World :=
  if asks_release (first_outcome app_id s)
  then snd (http_get (release_url app_id)
              (snd (http_get (app_url app_id) (world s))))
  else snd (http_get (app_url app_id) (world s)).

(** ** Facts about the building blocks *)

Lemma fetch_inv url s v s1 :
  fetch url s = (inr v, s1) ->
  exists r w1,
    http_get url (world s) = (inr r, w1) /\ http_error_msg r = None
    /\ body_json r = inr v /\ s1 = mkState w1 (stdout s).
Proof.
  unfold fetch, bind, requests_get, raise_for_status, json.
  destruct (http_get url (world s)) as [[m | r] w1]; [discriminate |].
  destruct (http_error_msg r) as [m |] eqn:Hstatus; simpl; [discriminate |].
  destruct (body_json r) as [m | v'] eqn:Hbody; simpl; [discriminate |].
  intros H. inversion H; subst. exists r, w1. repeat split; assumption.
Qed.

(** A request only fails with a [RequestException], and prints nothing. *)
Lemma fetch_raises url s e s1 :
  fetch url s = (inl e, s1) ->
  (exists m, e = RequestException m) /\ stdout s1 = stdout s.
Proof.
  unfold fetch, bind, requests_get, raise_for_status, json.
  destruct (http_get url (world s)) as [[m | r] w1].
  - intros H; inversion H; subst; simpl; eauto.
  - destruct (http_error_msg r) as [m |]; simpl.
    + intros H; inversion H; subst; simpl; eauto.
    + destruct (body_json r) as [m | v']; simpl; intros H; inversion H;
        subst; simpl; eauto.
Qed.

Lemma fetch_stdout url s v s1 :
  fetch url s = (inr v, s1) -> stdout s1 = stdout s.
Proof.
  intros H. apply fetch_inv in H.
  destruct H as (r & w1 & _ & _ & _ & ->). reflexivity.
Qed.

(** The [try] body, read request by request. *)
Lemma try_block_fetch app_id s :
  try_block app_id s =
  (app_data <- fetch (app_url app_id) ;;
   app_name <- method_get app_data "title" (VStr "Unknown") ;;
   release_data <- fetch (release_url app_id) ;;
   if has_release release_data then
     first <- getitem_int release_data 0 ;;
     version <- getitem_str first "name" ;;
     ret (app_name, version, VStr (download_url app_id version))
   else
     print (msg_unexpected app_id) ;;
     ret (app_name, VNone, VNone)) s.
Proof.
  unfold try_block, fetch, bind.
  destruct (requests_get (app_url app_id) s) as [[e | r] s1]; [reflexivity |].
  destruct (raise_for_status r s1) as [[e | []] s1a]; [reflexivity |].
  destruct (json r s1a) as [[e | app_data] s1b]; [reflexivity |].
  destruct (method_get app_data "title" (VStr "Unknown") s1b)
    as [[e | app_name] s1c]; [reflexivity |].
  destruct (requests_get (release_url app_id) s1c) as [[e | r2] s2];
    [reflexivity |].
  destruct (raise_for_status r2 s2) as [[e | []] s2a]; [reflexivity |].
  destruct (json r2 s2a) as [[e | release_data] s2b]; reflexivity.
Qed.

(** A non-empty URL string is true in an [if]. *)
Lemma download_url_truthy app_id version :
  truthy (VStr (download_url app_id version)) = true.
Proof. reflexivity. Qed.

(** A release document passes the test exactly when it is a non-empty
    list. *)
Lemma has_release_list release_data :
  has_release release_data = true <->
  exists first rest, release_data = VList (first :: rest).
Proof.
  split.
  - unfold has_release.
    destruct release_data as [| | | | | [| first rest] |];
      rewrite ?andb_false_r; simpl; try discriminate; eauto.
  - intros (first & rest & ->). reflexivity.
Qed.

(** ** The lookup, case by case *)

Ltac run_lookup :=
  unfold get_splunkbase_app_info, try_except;
  rewrite try_block_fetch; unfold bind.

(** The app request fails: nothing is known. *)
Lemma lookup_app_fails app_id s e s1 :
  fetch (app_url app_id) s = (inl e, s1) ->
  get_splunkbase_app_info app_id s =
    (inr all_absent, mkState (world s1) (stdout s ++ [msg_request app_id e])).
Proof.
  intros H. run_lookup. rewrite H.
  destruct (fetch_raises _ _ _ _ H) as [[m ->] Hout].
  simpl. unfold print, bind, ret. simpl. rewrite Hout. reflexivity.
Qed.

(** The app document is not an object: the [AttributeError] of [.get]
    leaves the function. *)
Lemma lookup_app_not_object app_id s v s1 :
  fetch (app_url app_id) s = (inr v, s1) ->
  (forall d, v <> VDict d) ->
  get_splunkbase_app_info app_id s =
    (inl (AttributeError
            ("'" ++ type_name v ++ "' object has no attribute 'get'")), s1).
Proof.
  intros H Hv. run_lookup. rewrite H.
  destruct v as [| b | n | r | t | l | d]; try reflexivity.
  destruct (Hv d). reflexivity.
Qed.

(** The release request fails: the name that was read is dropped. *)
Lemma lookup_release_fails app_id s d s1 e s2 :
  fetch (app_url app_id) s = (inr (VDict d), s1) ->
  fetch (release_url app_id) s1 = (inl e, s2) ->
  get_splunkbase_app_info app_id s =
    (inr all_absent, mkState (world s2) (stdout s ++ [msg_request app_id e])).
Proof.
  intros H1 H2. run_lookup. rewrite H1. simpl. rewrite H2.
  destruct (fetch_raises _ _ _ _ H2) as [[m ->] Hout].
  simpl. unfold print, bind, ret. simpl.
  rewrite Hout, (fetch_stdout _ _ _ _ H1). reflexivity.
Qed.

(** No release to read: the name alone is returned. *)
Lemma lookup_no_release app_id s d s1 release_data s2 :
  fetch (app_url app_id) s = (inr (VDict d), s1) ->
  fetch (release_url app_id) s1 = (inr release_data, s2) ->
  has_release release_data = false ->
  get_splunkbase_app_info app_id s =
    (inr (title_or_unknown d, VNone, VNone),
     mkState (world s2) (stdout s ++ [msg_unexpected app_id])).
Proof.
  intros H1 H2 Hrel. run_lookup. rewrite H1. simpl. rewrite H2, Hrel.
  unfold print, bind, ret. simpl.
  rewrite (fetch_stdout _ _ _ _ H2), (fetch_stdout _ _ _ _ H1). reflexivity.
Qed.

(** Element 0 is an object with a [name]: the full triple. *)
Lemma lookup_release app_id s d s1 first rest s2 version :
  fetch (app_url app_id) s = (inr (VDict d), s1) ->
  fetch (release_url app_id) s1 = (inr (VList (VDict first :: rest)), s2) ->
  dict_lookup "name" first = Some version ->
  get_splunkbase_app_info app_id s =
    (inr (title_or_unknown d, version, VStr (download_url app_id version)), s2).
Proof.
  intros H1 H2 Hname. run_lookup. rewrite H1. simpl. rewrite H2. simpl.
  rewrite Hname. reflexivity.
Qed.

(** Element 0 is an object without a [name]: the [KeyError] is caught. *)
Lemma lookup_release_no_name app_id s d s1 first rest s2 :
  fetch (app_url app_id) s = (inr (VDict d), s1) ->
  fetch (release_url app_id) s1 = (inr (VList (VDict first :: rest)), s2) ->
  dict_lookup "name" first = None ->
  get_splunkbase_app_info app_id s =
    (inr all_absent,
     mkState (world s2)
       (stdout s ++ [msg_structure app_id (KeyError (VStr "name"))])).
Proof.
  intros H1 H2 Hname. run_lookup. rewrite H1. simpl. rewrite H2. simpl.
  rewrite Hname. simpl. unfold print, bind, ret. simpl.
  rewrite (fetch_stdout _ _ _ _ H2), (fetch_stdout _ _ _ _ H1). reflexivity.
Qed.

(** Element 0 is not an object: the [TypeError] of [first["name"]] leaves
    the function. *)
Lemma lookup_release_not_object app_id s d s1 first rest s2 :
  fetch (app_url app_id) s = (inr (VDict d), s1) ->
  fetch (release_url app_id) s1 = (inr (VList (first :: rest)), s2) ->
  (forall f, first <> VDict f) ->
  exists m, get_splunkbase_app_info app_id s = (inl (TypeError m), s2).
Proof.
  intros H1 H2 Hfirst. run_lookup. rewrite H1. simpl. rewrite H2. simpl.
  destruct first as [| b | n | r | t | l | f];
    [| | | | | | destruct (Hfirst f); reflexivity];
    simpl; unfold raise; eauto.
Qed.

(** A failed request, seen from [fetch]. *)
Lemma fetch_request_error url s o w1 e :
  http_get url (world s) = (o, w1) ->
  request_error o = Some e ->
  fetch url s = (inl e, mkState w1 (stdout s)).
Proof.
  intros Hget Herr. unfold fetch, bind, requests_get. rewrite Hget.
  destruct o as [m | r]; simpl in Herr.
  - inversion Herr; reflexivity.
  - unfold raise_for_status.
    destruct (http_error_msg r) as [m |]; simpl in Herr; inversion Herr.
    reflexivity.
Qed.

(** Every way the lookup can return. *)
Lemma lookup_returns_cases app_id s t s' :
  get_splunkbase_app_info app_id s = (inr t, s') ->
  t = all_absent
  \/ (exists d s1,
        fetch (app_url app_id) s = (inr (VDict d), s1)
        /\ t = (title_or_unknown d, VNone, VNone))
  \/ (exists d s1 first rest version,
        fetch (app_url app_id) s = (inr (VDict d), s1)
        /\ fetch (release_url app_id) s1
           = (inr (VList (VDict first :: rest)), s')
        /\ dict_lookup "name" first = Some version
        /\ t = (title_or_unknown d, version,
                VStr (download_url app_id version))).
Proof.
  destruct (fetch (app_url app_id) s) as [[e | app_data] s1] eqn:Happ.
  { rewrite (lookup_app_fails _ _ _ _ Happ). intros H; inversion H; auto. }
  destruct app_data as [| b | n | r | t0 | l | d];
    try (rewrite (lookup_app_not_object _ _ _ _ Happ) by discriminate;
         discriminate).
  destruct (fetch (release_url app_id) s1) as [[e | release_data] s2] eqn:Hrel.
  { rewrite (lookup_release_fails _ _ _ _ _ _ Happ Hrel).
    intros H; inversion H; auto. }
  destruct (has_release release_data) eqn:Hhas.
  - apply has_release_list in Hhas. destruct Hhas as (first & rest & ->).
    destruct first as [| b | n | r | t0 | l | f];
      try (destruct (lookup_release_not_object _ _ _ _ _ _ _ Happ Hrel)
             as [m ->];
           [discriminate | discriminate]).
    destruct (dict_lookup "name" f) as [version |] eqn:Hname.
    + rewrite (lookup_release _ _ _ _ _ _ _ _ Happ Hrel Hname).
      intros H; inversion H; subst. right; right.
      exists d, s1, f, rest, version. auto.
    + rewrite (lookup_release_no_name _ _ _ _ _ _ _ Happ Hrel Hname).
      intros H; inversion H; auto.
  - rewrite (lookup_no_release _ _ _ _ _ _ Happ Hrel Hhas).
    intros H; inversion H; subst. right; left. eauto.
Qed.


(** The URL slot is [None] or a download URL. *)
Lemma lookup_url_slot app_id s t s' :
  get_splunkbase_app_info app_id s = (inr t, s') ->
  snd t = VNone \/ exists version, snd t = VStr (download_url app_id version).
Proof.
  intros H. apply lookup_returns_cases in H.
  destruct H as [-> | [(d & s1 & _ & ->) | H]];
    [| | destruct H as (d & s1 & f & rest & v & _ & _ & _ & ->)];
    simpl; eauto.
Qed.

(** ** The loop *)

Lemma join_items_strs (l : list string) (i : nat) :
  join_items i (map VStr l) = inr l.
Proof.
  revert i. induction l as [| u l IH]; intros i; simpl; [reflexivity |].
  rewrite IH. reflexivity.
Qed.

Lemma for_app_ids_collects app_ids :
  forall urls s results s',
    lookups app_ids s = (inr results, s') ->
    for_app_ids app_ids urls s
    = (inr (urls ++ map VStr (present_urls results))%list, s').
Proof.
  induction app_ids as [| app_id rest IH]; intros urls s results s' H.
  - inversion H; subst. simpl. unfold ret. rewrite app_nil_r. reflexivity.
  - simpl in H. unfold bind in H.
    destruct (get_splunkbase_app_info app_id s) as [[e | t] s1] eqn:Hone;
      [discriminate |].
    destruct (lookups rest s1) as [[e | ts] s2] eqn:Hrest; [discriminate |].
    inversion H; subst. simpl. unfold bind. rewrite Hone.
    rewrite (IH _ _ _ _ Hrest).
    destruct (lookup_url_slot _ _ _ _ Hone) as [Hurl | [version Hurl]];
      unfold present_urls; simpl; rewrite Hurl; simpl.
    + reflexivity.
    + rewrite <- app_assoc. reflexivity.
Qed.

(** An exception that leaves a lookup leaves the loop too. *)
Lemma for_app_ids_raises app_ids :
  forall urls s e s',
    lookups app_ids s = (inl e, s') ->
    for_app_ids app_ids urls s = (inl e, s').
Proof.
  induction app_ids as [| app_id rest IH]; intros urls s e s' H.
  - discriminate.
  - simpl in H. unfold bind in H. simpl. unfold bind.
    destruct (get_splunkbase_app_info app_id s) as [[e1 | t] s1] eqn:Hone;
      [inversion H; reflexivity |].
    destruct (lookups rest s1) as [[e2 | ts] s2] eqn:Hrest; [| discriminate].
    inversion H; subst. apply IH. exact Hrest.
Qed.

(** The [try] body prints nothing on the way to an exception. *)
Lemma try_block_raises_stdout app_id s e s1 :
  try_block app_id s = (inl e, s1) -> stdout s1 = stdout s.
Proof.
  rewrite try_block_fetch. unfold bind.
  destruct (fetch (app_url app_id) s) as [[e1 | app_data] sa] eqn:Happ.
  { intros H; inversion H; subst. apply (fetch_raises _ _ _ _ Happ). }
  pose proof (fetch_stdout _ _ _ _ Happ) as Hout1.
  destruct app_data as [| b | n | r | t0 | l | d]; simpl;
    try (intros H; inversion H; subst; assumption).
  destruct (fetch (release_url app_id) sa) as [[e2 | release_data] sb] eqn:Hrel.
  { intros H; inversion H; subst.
    rewrite <- Hout1. apply (fetch_raises _ _ _ _ Hrel). }
  pose proof (fetch_stdout _ _ _ _ Hrel) as Hout2.
  destruct (has_release release_data) eqn:Hhas.
  - apply has_release_list in Hhas. destruct Hhas as (first & rest & ->).
    simpl.
    destruct first as [| b | n | r | t0 | l | f]; simpl;
      try (intros H; inversion H; subst; congruence).
    destruct (dict_lookup "name" f); simpl; intros H; inversion H; subst.
    congruence.
  - unfold print, ret. simpl. discriminate.
Qed.

(** ** The properties of the lookup *)

(** C1, as amended: when the app endpoint answers with a JSON object and
    the release endpoint with a non-empty list whose element 0 is an object
    with a [name], and neither the [title] value nor that [name] value is
    null, the lookup returns (name, version, url) with the three slots
    present, where version is the [name] value and url is
    [https://splunkbase.splunk.com/app/{app_id}/release/{version}/download/]. *)
Theorem app_info_success app_id s d s1 first rest s2 version :
  fetch (app_url app_id) s = (inr (VDict d), s1) ->
  fetch (release_url app_id) s1 = (inr (VList (VDict first :: rest)), s2) ->
  dict_lookup "name" first = Some version ->
  dict_lookup "title" d <> Some VNone ->
  version <> VNone ->
  exists name,
    get_splunkbase_app_info app_id s
    = (inr (name, version,
            VStr ("https://splunkbase.splunk.com/app/" ++ app_id
                    ++ "/release/" ++ py_str version ++ "/download/")), s2)
    /\ is_present name = true
    /\ is_present version = true.
Proof.
  intros Happ Hrel Hname Htitle Hversion.
  exists (title_or_unknown d). split; [| split].
  - apply (lookup_release _ _ _ _ _ _ _ _ Happ Hrel Hname).
  - unfold title_or_unknown.
    destruct (dict_lookup "title" d) as [[| | | | | |] |];
      try reflexivity. congruence.
  - destruct version; try reflexivity. congruence.
Qed.

(** C2, as amended: when the app endpoint answers with a JSON object and
    the release GET fails with a request error (a network failure, or a
    status from 400 to 599), the lookup prints the request diagnostic and
    returns (absent, absent, absent): the name read by the first call is
    not kept. *)
Theorem release_failure_all_absent app_id s d s1 o w2 e :
  fetch (app_url app_id) s = (inr (VDict d), s1) ->
  http_get (release_url app_id) (world s1) = (o, w2) ->
  request_error o = Some e ->
  get_splunkbase_app_info app_id s
  = (inr (VNone, VNone, VNone),
     mkState w2
       (stdout s ++ ["Error fetching details for app " ++ app_id ++ ": "
                       ++ str_exn e])).
Proof.
  intros Happ Hget Herr.
  pose proof (fetch_request_error _ _ _ _ _ Hget Herr) as Hrel.
  rewrite (lookup_release_fails _ _ _ _ _ _ Happ Hrel).
  reflexivity.
Qed.

(** C5, as amended: when the app endpoint answers with a JSON object whose
    [title] value is not null and the release endpoint answers with an
    empty array or with a document that is not a list, the lookup prints a
    diagnostic and returns (name, absent, absent), where name, which is
    present, is the one read by the first call. *)
Theorem empty_release_keeps_name app_id s d s1 release_data s2 :
  fetch (app_url app_id) s = (inr (VDict d), s1) ->
  fetch (release_url app_id) s1 = (inr release_data, s2) ->
  release_data = VList [] \/ isinstance_list release_data = false ->
  dict_lookup "title" d <> Some VNone ->
  get_splunkbase_app_info app_id s
  = (inr (title_or_unknown d, VNone, VNone),
     mkState (world s2)
       (stdout s ++ ["Error: Unexpected response structure for app "
                       ++ app_id]))
  /\ is_present (title_or_unknown d) = true.
Proof.
  intros Happ Hrel Hshape Htitle. split.
  - apply (lookup_no_release _ _ _ _ _ _ Happ Hrel).
    destruct (has_release release_data) eqn:Hhas; [| reflexivity].
    apply has_release_list in Hhas. destruct Hhas as (first & rest & ->).
    destruct Hshape; discriminate.
  - unfold title_or_unknown.
    destruct (dict_lookup "title" d) as [[| | | | | |] |];
      try reflexivity. congruence.
Qed.

(** C6, as amended: when the app GET fails with a network failure or with
    a status from 400 to 599, the lookup returns (absent, absent, absent)
    and prints one diagnostic that holds the identifier and the text of
    the error. *)
Theorem app_failure_all_absent app_id s o w1 e :
  http_get (app_url app_id) (world s) = (o, w1) ->
  request_error o = Some e ->
  get_splunkbase_app_info app_id s
  = (inr (VNone, VNone, VNone),
     mkState w1
       (stdout s ++ ["Error fetching details for app " ++ app_id ++ ": "
                       ++ str_exn e])).
Proof.
  intros Hget Herr.
  rewrite (lookup_app_fails _ _ _ _ (fetch_request_error _ _ _ _ _ Hget Herr)).
  reflexivity.
Qed.

(** C7: when reading the JSON raises a missing-key or an index error (as
    when element 0 of the release list has no [name]), the lookup does what
    it does on a request failure: it prints one diagnostic with the
    identifier and the error, and returns (absent, absent, absent),
    whatever name it had read. *)
Theorem structure_error_all_absent app_id s e s1 :
  try_block app_id s = (inl e, s1) ->
  is_key_or_index_error e = true ->
  get_splunkbase_app_info app_id s
  = (inr (VNone, VNone, VNone),
     mkState (world s1)
       (stdout s ++ ["Unexpected response structure for app " ++ app_id
                       ++ ": " ++ str_exn e])).
Proof.
  intros Hbody Herr.
  unfold get_splunkbase_app_info, try_except. rewrite Hbody.
  rewrite <- (try_block_raises_stdout _ _ _ _ Hbody).
  destruct e; try discriminate; reflexivity.
Qed.

(** C8, as amended: when the app endpoint answers with a JSON object, the
    release request succeeds too, and its document is either not a
    non-empty list or a list whose element 0 is an object with a [name],
    the name slot of the result is the value of [title] when the object has
    the key, and the string [Unknown] when it has not. *)
Theorem name_slot_is_title app_id s d s1 release_data s2 :
  fetch (app_url app_id) s = (inr (VDict d), s1) ->
  fetch (release_url app_id) s1 = (inr release_data, s2) ->
  release_readable release_data = true ->
  exists name version url s',
    get_splunkbase_app_info app_id s = (inr (name, version, url), s')
    /\ (forall t, dict_lookup "title" d = Some t -> name = t)
    /\ (dict_lookup "title" d = None -> name = VStr "Unknown").
Proof.
  intros Happ Hrel Hread.
  assert (Hname : (forall t, dict_lookup "title" d = Some t ->
                             title_or_unknown d = t)
                  /\ (dict_lookup "title" d = None ->
                      title_or_unknown d = VStr "Unknown")).
  { unfold title_or_unknown. split.
    - intros t ->. reflexivity.
    - intros ->. reflexivity. }
  destruct (has_release release_data) eqn:Hhas.
  - unfold release_readable in Hread. rewrite Hhas in Hread. simpl in Hread.
    destruct release_data as [| | | | | [| [| | | | | | f] rest] |];
      try discriminate.
    destruct (dict_lookup "name" f) as [version |] eqn:Hver;
      [| discriminate].
    exists (title_or_unknown d), version,
      (VStr (download_url app_id version)), s2.
    split; [| exact Hname].
    apply (lookup_release _ _ _ _ _ _ _ _ Happ Hrel Hver).
  - exists (title_or_unknown d), VNone, VNone,
      (mkState (world s2) (stdout s ++ [msg_unexpected app_id])).
    split; [apply (lookup_no_release _ _ _ _ _ _ Happ Hrel Hhas) | exact Hname].
Qed.

(** C10, as amended: when neither the [title] value of the app document
    nor the [name] value of element 0 of the release list is null, a
    triple the lookup returns has one of three shapes: (present, present,
    present), (present, absent, absent) or (absent, absent, absent). *)
Theorem result_shapes app_id s t s' :
  get_splunkbase_app_info app_id s = (inr t, s') ->
  app_title app_id s <> Some VNone ->
  latest_name app_id s <> Some VNone ->
  three_shapes t.
Proof.
  intros H Htitle Hversion. unfold three_shapes.
  apply lookup_returns_cases in H.
  destruct H as [-> | [(d & s1 & Happ & ->)
                      | (d & s1 & f & rest & v & Happ & Hrel & Hname & ->)]].
  - right; right; reflexivity.
  - right; left. unfold app_title in Htitle. rewrite Happ in Htitle.
    unfold shape, title_or_unknown. simpl.
    destruct (dict_lookup "title" d) as [[| | | | | |] |];
      try reflexivity. congruence.
  - left. unfold app_title in Htitle. rewrite Happ in Htitle.
    unfold latest_name in Hversion. rewrite Happ, Hrel, Hname in Hversion.
    unfold shape, title_or_unknown. simpl.
    destruct (dict_lookup "title" d) as [[| | | | | |] |];
      try congruence; destruct v; try reflexivity; congruence.
Qed.

(** X7: Over a sequence of identifiers whose lookups each return a triple,
    [get_multiple_splunkbase_urls] returns the download URLs that are
    present, in the order of the identifiers, joined by commas, leaving out
    the identifiers whose URL is absent; the empty sequence, and a sequence
    where every URL is absent, give the empty string. *)
Theorem multiple_urls_joined app_ids s results s' :
  lookups app_ids s = (inr results, s') ->
  get_multiple_splunkbase_urls app_ids s
  = (inr (String.concat "," (present_urls results)), s')
  /\ (app_ids = [] -> String.concat "," (present_urls results) = EmptyString)
  /\ (Forall (fun t => is_present (snd t) = false) results ->
      String.concat "," (present_urls results) = EmptyString).
Proof.
  intros H. split; [| split].
  - unfold get_multiple_splunkbase_urls, bind.
    rewrite (for_app_ids_collects _ _ _ _ _ H). simpl.
    unfold str_join. rewrite join_items_strs. reflexivity.
  - intros ->. inversion H; subst. reflexivity.
  - intros Hall. replace (present_urls results) with (@nil string);
      [reflexivity |].
    unfold present_urls. clear H.
    induction Hall as [| t ts Ht _ IH]; simpl; [reflexivity |].
    rewrite Ht. exact IH.
Qed.

(** ** One lookup is a function of its two responses *)

Lemma fetch_decode url s :
  fetch url s
  = (decode (fst (http_get url (world s))),
     mkState (snd (http_get url (world s))) (stdout s)).
Proof.
  unfold fetch, bind, requests_get, raise_for_status, json, decode.
  destruct (http_get url (world s)) as [[m | r] w1]; simpl; [reflexivity |].
  destruct (http_error_msg r) as [m |]; simpl; [reflexivity |].
  destruct (body_json r) as [m | v]; reflexivity.
Qed.

Lemma decode_raises o e :
  decode o = inl e -> exists m, e = RequestException m.
Proof.
  unfold decode. destruct o as [m | r].
  - intros H; inversion H; eauto.
  - destruct (http_error_msg r) as [m |].
    + intros H; inversion H; eauto.
    + destruct (body_json r) as [m | v]; intros H; inversion H; eauto.
Qed.

(** The lookup, one request at a time, down to the reading of the release
    document. *)
Lemma lookup_unfold app_id s :
  get_splunkbase_app_info app_id s =
  match fetch (app_url app_id) s with
  | (inl e, s1) => except_clauses app_id e s1
  | (inr app_data, s1) =>
      match method_get app_data "title" (VStr "Unknown") s1 with
      | (inl e, s1') => except_clauses app_id e s1'
      | (inr app_name, s1') =>
          match fetch (release_url app_id) s1' with
          | (inl e, s2) => except_clauses app_id e s2
          | (inr release_data, s2) =>
              try_except
                (if has_release release_data then
                   first <- getitem_int release_data 0 ;;
                   version <- getitem_str first "name" ;;
                   ret (app_name, version,
                        VStr (download_url app_id version))
                 else
                   print (msg_unexpected app_id) ;;
                   ret (app_name, VNone, VNone))
                (except_clauses app_id) s2
          end
      end
  end.
Proof.
  run_lookup.
  destruct (fetch (app_url app_id) s) as [[e | app_data] s1]; [reflexivity |].
  destruct (method_get app_data "title" (VStr "Unknown") s1)
    as [[e | app_name] s1']; [reflexivity |].
  destruct (fetch (release_url app_id) s1') as [[e | release_data] s2];
    reflexivity.
Qed.

(** Reading the release document gives a result and prints lines that
    depend on the document alone. *)
Lemma read_release_run app_id app_name release_data :
  exists (result : exn + triple) (printed : list string),
  forall st : State World,
    try_except
      (if has_release release_data then
         first <- getitem_int release_data 0 ;;
         version <- getitem_str first "name" ;;
         ret (app_name, version, VStr (download_url app_id version))
       else
         print (msg_unexpected app_id) ;;
         ret (app_name, VNone, VNone))
      (except_clauses app_id) st
    = (result, mkState (world st) (stdout st ++ printed)).
Proof.
  destruct (has_release release_data) eqn:Hhas.
  - apply has_release_list in Hhas. destruct Hhas as (first & rest & ->).
    destruct first as [| b | n | r | t0 | l | f];
      try (eexists (inl (TypeError _)), []; intros [w out];
           unfold try_except, bind; simpl; rewrite app_nil_r; reflexivity).
    destruct (dict_lookup "name" f) as [version |] eqn:Hname.
    + exists (inr (app_name, version, VStr (download_url app_id version))), [].
      intros [w out]. unfold try_except, bind. simpl. rewrite Hname.
      simpl. rewrite app_nil_r. reflexivity.
    + exists (inr all_absent), [msg_structure app_id (KeyError (VStr "name"))].
      intros [w out]. unfold try_except, bind. simpl. rewrite Hname.
      reflexivity.
  - exists (inr (app_name, VNone, VNone)), [msg_unexpected app_id].
    intros [w out]. reflexivity.
Qed.

(** The result and the lines printed, from the outcomes of the two GETs. *)
Lemma lookup_by_outcomes app_id o1 o2 :
  exists (result : exn + triple) (printed : list string),
  forall s,
    first_outcome app_id s = o1 ->
    second_outcome app_id s = o2 ->
    fst (get_splunkbase_app_info app_id s) = result
    /\ stdout (snd (get_splunkbase_app_info app_id s))
       = (stdout s ++ printed)%list.
Proof.
  unfold first_outcome, second_outcome.
  destruct (decode o1) as [e | app_data] eqn:Hfirst.
  { destruct (decode_raises _ _ Hfirst) as [m ->].
    exists (inr all_absent), [msg_request app_id (RequestException m)].
    intros s H1 _. rewrite lookup_unfold, fetch_decode, H1, Hfirst.
    split; reflexivity. }
  destruct app_data as [| b | n | r | t0 | l | d];
    try (eexists (inl (AttributeError _)), []; intros s H1 _;
         rewrite lookup_unfold, fetch_decode, H1, Hfirst; simpl;
         rewrite app_nil_r; split; reflexivity).
  destruct (decode o2) as [e | release_data] eqn:Hsecond.
  { destruct (decode_raises _ _ Hsecond) as [m ->].
    exists (inr all_absent), [msg_request app_id (RequestException m)].
    intros s H1 H2. rewrite lookup_unfold, fetch_decode, H1, Hfirst. simpl.
    rewrite fetch_decode. simpl. rewrite H2, Hsecond.
    split; reflexivity. }
  destruct (read_release_run app_id (title_or_unknown d) release_data)
    as (result & printed & Hread).
  exists result, printed. intros s H1 H2.
  rewrite lookup_unfold, fetch_decode, H1, Hfirst. simpl.
  rewrite fetch_decode. simpl. rewrite H2, Hsecond.
  unfold title_or_unknown in Hread. rewrite Hread. split; reflexivity.
Qed.

(** C9: the lookup is a function of the identifier and of the responses to
    its two requests: two calls that get the same responses return the
    same triple (or raise the same exception) and print the same lines,
    whatever the state they start from. *)
Theorem lookup_deterministic app_id s1 s2 :
  first_outcome app_id s1 = first_outcome app_id s2 ->
  second_outcome app_id s1 = second_outcome app_id s2 ->
  fst (get_splunkbase_app_info app_id s1)
  = fst (get_splunkbase_app_info app_id s2)
  /\ exists printed,
       stdout (snd (get_splunkbase_app_info app_id s1))
       = (stdout s1 ++ printed)%list
       /\ stdout (snd (get_splunkbase_app_info app_id s2))
          = (stdout s2 ++ printed)%list.
Proof.
  intros H1 H2.
  destruct (lookup_by_outcomes app_id (first_outcome app_id s2)
              (second_outcome app_id s2)) as (result & printed & Hany).
  destruct (Hany s1 H1 H2) as [Hres1 Hout1].
  destruct (Hany s2 eq_refl eq_refl) as [Hres2 Hout2].
  split; [congruence | exists printed; auto].
Qed.

(** ** The lookup follows its table *)

Lemma lookup_table_run app_id s :
  get_splunkbase_app_info app_id s
  = (fst (lookup_table app_id (first_outcome app_id s)
            (second_outcome app_id s)),
     mkState (world_after app_id s)
       (stdout s
          ++ snd (lookup_table app_id (first_outcome app_id s)
                    (second_outcome app_id s)))).
Proof.
  rewrite lookup_unfold, fetch_decode.
  unfold lookup_table, world_after, asks_release, first_outcome,
    second_outcome.
  destruct (decode (fst (http_get (app_url app_id) (world s))))
    as [e | app_data] eqn:Hfirst.
  { destruct (decode_raises _ _ Hfirst) as [m ->]. reflexivity. }
  destruct app_data as [| b | n | r | t0 | l | d];
    try (simpl; rewrite app_nil_r; reflexivity).
  simpl. rewrite fetch_decode. simpl.
  destruct (decode (fst (http_get (release_url app_id)
                           (snd (http_get (app_url app_id) (world s))))))
    as [e | release_data] eqn:Hsecond.
  { destruct (decode_raises _ _ Hsecond) as [m ->]. reflexivity. }
  unfold try_except, bind, has_release.
  destruct release_data as [| b | n | r | t0 | [| x l] | f];
    try reflexivity;
    try (rewrite andb_false_r; reflexivity).
  destruct x as [| b | n | r | t0 | l0 | f]; simpl;
    try (rewrite app_nil_r; reflexivity).
  destruct (dict_lookup "name" f) as [version |]; simpl;
    [rewrite app_nil_r |]; reflexivity.
Qed.

(** What the table prints: nothing beside a URL or an exception, one line
    otherwise. *)
Lemma lookup_table_lines app_id first second :
  match fst (lookup_table app_id first second) with
  | inr t =>
      if is_present (snd t)
      then snd (lookup_table app_id first second) = []
      else exists line, snd (lookup_table app_id first second) = [line]
  | inl _ => snd (lookup_table app_id first second) = []
  end.
Proof.
  unfold lookup_table.
  destruct (decode first) as [e | [| b | n | r | t0 | l | d]]; simpl; eauto.
  destruct (decode second)
    as [e | [| b | n | r | t0 | [| [| b | n | r | t0 | l0 | f] l] | f]];
    simpl; eauto.
  destruct (dict_lookup "name" f); simpl; eauto.
Qed.


(** ** More on one lookup *)



(** X4: In a triple the lookup returns, the URL goes with the version: either
    both slots are [None], or the URL slot is the download URL built from the
    identifier and the version slot. *)
Theorem url_follows_version app_id s name version url s' :
  get_splunkbase_app_info app_id s = (inr (name, version, url), s') ->
  (version = VNone /\ url = VNone)
  \/ url = VStr (download_url app_id version).
Proof.
  intros H. apply lookup_returns_cases in H.
  destruct H as [H | [(d & s1 & _ & H) | H]].
  - inversion H. auto.
  - inversion H. auto.
  - destruct H as (d & s1 & f & rest & v & _ & _ & _ & H).
    inversion H. auto.
Qed.

(** X5: What a lookup prints: nothing when it returns a URL, nothing when an
    exception leaves it, and one line, added after what was printed before,
    when it returns without a URL. *)
Theorem lookup_prints app_id s :
  match fst (get_splunkbase_app_info app_id s) with
  | inr (_, _, url) =>
      if is_present url
      then stdout (snd (get_splunkbase_app_info app_id s)) = stdout s
      else exists line,
          stdout (snd (get_splunkbase_app_info app_id s))
          = (stdout s ++ [line])%list
  | inl _ => stdout (snd (get_splunkbase_app_info app_id s)) = stdout s
  end.
Proof.
  rewrite lookup_table_run. simpl.
  pose proof (lookup_table_lines app_id (first_outcome app_id s)
                (second_outcome app_id s)) as H.
  destruct (fst (lookup_table app_id (first_outcome app_id s)
                   (second_outcome app_id s))) as [e | [[name version] url]].
  - rewrite H. apply app_nil_r.
  - simpl in H. destruct (is_present url).
    + rewrite H. apply app_nil_r.
    + destruct H as [line ->]. eauto.
Qed.

(** ** More on the loop *)

(** The lookups of a sequence in two parts. *)
Lemma lookups_app before :
  forall after s results s1,
    lookups before s = (inr results, s1) ->
    lookups (before ++ after) s
    = match lookups after s1 with
      | (inr more, s2) => (inr (results ++ more)%list, s2)
      | (inl e, s2) => (inl e, s2)
      end.
Proof.
  induction before as [| app_id rest IH]; intros after s results s1 H.
  - inversion H; subst. simpl. destruct (lookups after s1) as [[e | more] s2];
      reflexivity.
  - simpl in H. unfold bind in H. simpl. unfold bind.
    destruct (get_splunkbase_app_info app_id s) as [[e | t] sa] eqn:Hone;
      [discriminate |].
    destruct (lookups rest sa) as [[e | ts] sb] eqn:Hrest; [discriminate |].
    inversion H; subst. rewrite (IH after _ _ _ Hrest).
    destruct (lookups after s1) as [[e | more] s2]; reflexivity.
Qed.

(** The URL slots of the results of a sequence. *)
Lemma lookups_url_slots app_ids :
  forall s results s',
    lookups app_ids s = (inr results, s') ->
    Forall (fun t => snd t = VNone
                     \/ exists app_id version,
                         snd t = VStr (download_url app_id version)) results.
Proof.
  induction app_ids as [| app_id rest IH]; intros s results s' H.
  - inversion H. constructor.
  - simpl in H. unfold bind in H.
    destruct (get_splunkbase_app_info app_id s) as [[e | t] sa] eqn:Hone;
      [discriminate |].
    destruct (lookups rest sa) as [[e | ts] sb] eqn:Hrest; [discriminate |].
    inversion H; subst. constructor; [| apply (IH _ _ _ Hrest)].
    destruct (lookup_url_slot _ _ _ _ Hone) as [Hurl | [version Hurl]]; eauto.
Qed.

Lemma concat_cons_nonempty sep x l :
  x <> EmptyString -> String.concat sep (x :: l) <> EmptyString.
Proof.
  intros Hx. destruct x as [| c x']; [congruence |].
  destruct l; simpl; discriminate.
Qed.

Lemma present_urls_cons t ts :
  present_urls (t :: ts)
  = if is_present (snd t) then py_str (snd t) :: present_urls ts
    else present_urls ts.
Proof.
  unfold present_urls. cbn [map filter]. destruct (is_present (snd t));
    reflexivity.
Qed.

Lemma download_url_nonempty app_id version :
  download_url app_id version <> EmptyString.
Proof. unfold download_url. simpl. discriminate. Qed.

(** The joined URLs are empty exactly when there is none. *)
Lemma joined_empty_iff results :
  Forall (fun t => snd t = VNone
                   \/ exists app_id version,
                       snd t = VStr (download_url app_id version)) results ->
  String.concat "," (present_urls results) = EmptyString
  <-> Forall (fun t => snd t = VNone) results.
Proof.
  intros Hslots.
  induction Hslots as [| t ts Ht _ IH].
  - split; [constructor | reflexivity].
  - rewrite present_urls_cons.
    destruct Ht as [Hurl | (app_id & version & Hurl)]; rewrite Hurl;
      cbv beta iota delta [is_present py_str].
    + split.
      * intros Hjoin. constructor; [exact Hurl | apply IH, Hjoin].
      * intros Hall. inversion Hall; subst. apply IH. assumption.
    + split.
      * intros Hjoin. exfalso. revert Hjoin.
        apply concat_cons_nonempty, download_url_nonempty.
      * intros Hall. inversion Hall as [| t' ts' Hnone]; subst.
        rewrite Hurl in Hnone. discriminate.
Qed.


(** X8: An exception that leaves a lookup stops [get_multiple_splunkbase_urls]:
    it leaves the function too, in the state the lookup left, and the
    identifiers after it are not looked up. *)
Theorem multiple_urls_aborts before app_id after s results s1 e s2 :
  lookups before s = (inr results, s1) ->
  get_splunkbase_app_info app_id s1 = (inl e, s2) ->
  get_multiple_splunkbase_urls (before ++ app_id :: after) s = (inl e, s2).
Proof.
  intros Hbefore Hone.
  unfold get_multiple_splunkbase_urls, bind.
  rewrite (for_app_ids_raises (before ++ app_id :: after) [] s e s2);
    [reflexivity |].
  rewrite (lookups_app before (app_id :: after) _ _ _ Hbefore).
  simpl. unfold bind. rewrite Hone. reflexivity.
Qed.

(** X9: Over a sequence whose lookups each return a triple, the string returned
    is empty exactly when no lookup gave a URL. *)
Theorem multiple_urls_empty_iff app_ids s results s' :
  lookups app_ids s = (inr results, s') ->
  fst (get_multiple_splunkbase_urls app_ids s) = inr EmptyString
  <-> Forall (fun t => snd t = VNone) results.
Proof.
  intros H. pose proof (lookups_url_slots _ _ _ _ H) as Hslots.
  unfold get_multiple_splunkbase_urls, bind.
  rewrite (for_app_ids_collects _ _ _ _ _ H).
  unfold str_join. rewrite app_nil_l, join_items_strs.
  unfold ret. cbn [fst].
  pose proof (joined_empty_iff results Hslots) as [Hto Hfrom].
  split.
  - intros Hjoin. apply Hto. congruence.
  - intros Hall. f_equal. apply Hfrom, Hall.
Qed.


Lemma get_multiple_collects app_ids s results s' :
  lookups app_ids s = (inr results, s') ->
  get_multiple_splunkbase_urls app_ids s
  = (inr (String.concat "," (present_urls results)), s').
Proof.
  intros H. unfold get_multiple_splunkbase_urls, bind.
  rewrite (for_app_ids_collects _ _ _ _ _ H). simpl.
  unfold str_join. rewrite join_items_strs. reflexivity.
Qed.

Lemma string_app_assoc (a b c : string) : (a ++ b) ++ c = a ++ b ++ c.
Proof.
  induction a as [| ch a IH]; simpl; [reflexivity |]. rewrite IH. reflexivity.
Qed.

Lemma concat_app sep (l1 l2 : list string) :
  String.concat sep (l1 ++ l2)
  = match l1, l2 with
    | [], _ => String.concat sep l2
    | _, [] => String.concat sep l1
    | _, _ => String.concat sep l1 ++ sep ++ String.concat sep l2
    end.
Proof.
  induction l1 as [| x [| y l1'] IH].
  - reflexivity.
  - destruct l2; reflexivity.
  - destruct l2 as [| z l2'].
    + rewrite app_nil_r. reflexivity.
    + change (String.concat sep ((x :: y :: l1') ++ z :: l2'))
        with (x ++ sep ++ String.concat sep ((y :: l1') ++ z :: l2')).
      rewrite IH.
      change (String.concat sep (x :: y :: l1'))
        with (x ++ sep ++ String.concat sep (y :: l1')).
      rewrite !string_app_assoc. reflexivity.
Qed.

Lemma present_urls_app ra rb :
  present_urls (ra ++ rb) = (present_urls ra ++ present_urls rb)%list.
Proof.
  unfold present_urls. rewrite map_app, filter_app, map_app. reflexivity.
Qed.

(** The present URLs of a sequence of results are not empty strings. *)
Lemma present_urls_nonempty app_ids s results s' :
  lookups app_ids s = (inr results, s') ->
  Forall (fun u => u <> EmptyString) (present_urls results).
Proof.
  intros H. pose proof (lookups_url_slots _ _ _ _ H) as Hslots. clear H.
  induction Hslots as [| t ts Ht _ IH]; [constructor |].
  rewrite present_urls_cons.
  destruct Ht as [Hurl | (app_id & version & Hurl)]; rewrite Hurl;
    cbv beta iota delta [is_present py_str]; [exact IH |].
  constructor; [apply download_url_nonempty | exact IH].
Qed.

Lemma concat_empty_nil sep (l : list string) :
  Forall (fun u => u <> EmptyString) l ->
  String.eqb (String.concat sep l) EmptyString
  = match l with [] => true | _ => false end.
Proof.
  intros Hl. destruct Hl as [| u l Hu _]; [reflexivity |].
  apply String.eqb_neq. apply concat_cons_nonempty, Hu.
Qed.

(** When [get_multiple_splunkbase_urls] returns, every lookup returned. *)
Lemma get_multiple_returns_inv app_ids s joined s' :
  get_multiple_splunkbase_urls app_ids s = (inr joined, s') ->
  exists results,
    lookups app_ids s = (inr results, s')
    /\ joined = String.concat "," (present_urls results).
Proof.
  intros H.
  destruct (lookups app_ids s) as [[e | results] s1] eqn:Hrun.
  - unfold get_multiple_splunkbase_urls, bind in H.
    rewrite (for_app_ids_raises _ _ _ _ _ Hrun) in H. discriminate.
  - rewrite (get_multiple_collects _ _ _ _ Hrun) in H.
    inversion H; subst. eauto.
Qed.

(** X12: Two calls in a row give what one call over the two sequences gives: the
    same state, and the two strings joined by a comma, except that an empty
    string adds nothing. *)
Theorem multiple_urls_app ids1 ids2 s joined1 s1 joined2 s2 :
  get_multiple_splunkbase_urls ids1 s = (inr joined1, s1) ->
  get_multiple_splunkbase_urls ids2 s1 = (inr joined2, s2) ->
  get_multiple_splunkbase_urls (ids1 ++ ids2) s
  = (inr (join_two joined1 joined2), s2).
Proof.
  intros H1 H2.
  apply get_multiple_returns_inv in H1. destruct H1 as (r1 & Hrun1 & ->).
  apply get_multiple_returns_inv in H2. destruct H2 as (r2 & Hrun2 & ->).
  pose proof (lookups_app ids1 ids2 _ _ _ Hrun1) as Hrun.
  rewrite Hrun2 in Hrun.
  rewrite (get_multiple_collects _ _ _ _ Hrun).
  rewrite present_urls_app, concat_app. unfold join_two.
  rewrite (concat_empty_nil "," _ (present_urls_nonempty _ _ _ _ Hrun1)).
  rewrite (concat_empty_nil "," _ (present_urls_nonempty _ _ _ _ Hrun2)).
  destruct (present_urls r1); [reflexivity |].
  destruct (present_urls r2); reflexivity.
Qed.

(** ** The main block *)

(** X13: A lookup that found a release under a title that is false in an [if]
    (the empty string, [null], zero) is reported by the main loop as an
    error, in one line, while [get_multiple_splunkbase_urls] returns its
    download URL. *)
Theorem falsy_title_reported_as_error app_id s d s1 f rest s2 version :
  fetch (app_url app_id) s = (inr (VDict d), s1) ->
  fetch (release_url app_id) s1 = (inr (VList (VDict f :: rest)), s2) ->
  dict_lookup "name" f = Some version ->
  truthy (title_or_unknown d) = false ->
  report_loop [app_id] s
  = (inr tt,
     mkState (world s2)
       (stdout s ++ [nl ++ "App ID: " ++ app_id ++ " - Error fetching info"]))
  /\ get_multiple_splunkbase_urls [app_id] s
     = (inr (download_url app_id version), s2).
Proof.
  intros Happ Hrel Hname Htitle.
  pose proof (lookup_release _ _ _ _ _ _ _ _ Happ Hrel Hname) as Hone.
  split.
  - simpl. unfold bind. rewrite Hone, Htitle. simpl.
    rewrite (fetch_stdout _ _ _ _ Hrel), (fetch_stdout _ _ _ _ Happ).
    reflexivity.
  - unfold get_multiple_splunkbase_urls, bind. simpl. unfold bind.
    rewrite Hone. reflexivity.
Qed.

(** The main loop over a sequence in two parts. *)
Lemma report_loop_app before :
  forall after s,
    report_loop (before ++ after) s
    = (report_loop before ;; report_loop after) s.
Proof.
  induction before as [| app_id rest IH]; intros after s.
  - reflexivity.
  - simpl. unfold bind.
    destruct (get_splunkbase_app_info app_id s)
      as [[e | [[name version] url]] s1]; [reflexivity |].
    destruct (truthy name && truthy url); unfold print; simpl;
      rewrite IH; reflexivity.
Qed.

Section Stateless.

(** The server answers by the URL alone. *)
Variable answer : string -> get_outcome.
Hypothesis http_get_answers : forall url w, fst (http_get url w) = answer url.

Lemma lookup_stateless app_id s :
  get_splunkbase_app_info app_id s
  = (fst (info answer app_id),
     mkState (world_after app_id s) (stdout s ++ snd (info answer app_id))).
Proof.
  rewrite lookup_table_run. unfold first_outcome, second_outcome, info.
  rewrite !http_get_answers. reflexivity.
Qed.

Lemma lookups_stateless app_ids :
  forallb (returns answer) app_ids = true ->
  forall s,
  exists w,
    lookups app_ids s
    = (inr (result_list answer app_ids),
       mkState w
         (stdout s ++ flat_map (fun app_id => snd (info answer app_id))
                        app_ids)).
Proof.
  induction app_ids as [| app_id rest IH]; intros Hall s.
  - exists (world s). simpl. unfold ret. rewrite app_nil_r.
    destruct s; reflexivity.
  - simpl in Hall. apply andb_true_iff in Hall. destruct Hall as [Hone Hrest].
    simpl. unfold bind. rewrite lookup_stateless.
    unfold returns in Hone. unfold result_list. simpl.
    destruct (info answer app_id) as [[e | t] lines]; [discriminate |].
    simpl.
    destruct (IH Hrest (mkState (world_after app_id s) (stdout s ++ lines)))
      as [w Hrun].
    exists w. rewrite Hrun. simpl. rewrite app_assoc. reflexivity.
Qed.

Lemma report_loop_stateless app_ids :
  forallb (returns answer) app_ids = true ->
  forall s,
  exists w,
    report_loop app_ids s
    = (inr tt,
       mkState w
         (stdout s
            ++ flat_map (fun app_id =>
                           (snd (info answer app_id)
                            ++ match fst (info answer app_id) with
                               | inr t => report_lines app_id t
                               | inl _ => []
                               end)%list) app_ids)).
Proof.
  induction app_ids as [| app_id rest IH]; intros Hall s.
  - exists (world s). simpl. unfold ret. rewrite app_nil_r.
    destruct s; reflexivity.
  - simpl in Hall. apply andb_true_iff in Hall. destruct Hall as [Hone Hrest].
    simpl. unfold bind. rewrite lookup_stateless.
    unfold returns in Hone.
    destruct (info answer app_id) as [[e | [[name version] url]] lines];
      [discriminate |].
    simpl. unfold print, report_lines.
    destruct (truthy name && truthy url); simpl.
    + match goal with
      | |- context [report_loop rest ?st] =>
          destruct (IH Hrest st) as [w Hrun]
      end.
      exists w. rewrite Hrun. simpl.
      repeat rewrite <- app_assoc. reflexivity.
    + match goal with
      | |- context [report_loop rest ?st] =>
          destruct (IH Hrest st) as [w Hrun]
      end.
      exists w. rewrite Hrun. simpl.
      repeat rewrite <- app_assoc. reflexivity.
Qed.

(** X14: On a server that answers by the URL alone, and when the lookup of every
    identifier returns, the main block returns and prints, after what was
    printed before: the heading and the rule; for each identifier in order
    the diagnostic of its lookup, if any, and its report (four lines when
    the name and the URL are true in an [if], one error line otherwise);
    the closing rule and the label; the diagnostics again, from the second
    round of lookups; and the present URLs joined by commas. *)
Theorem main_on_stateless_server app_ids s :
  forallb (returns answer) app_ids = true ->
  exists w,
    main_block app_ids s
    = (inr tt, mkState w (stdout s ++ main_output answer app_ids)).
Proof.
  intros Hall. unfold main_block, bind, print. simpl.
  match goal with
  | |- context [report_loop app_ids ?st] =>
      destruct (report_loop_stateless app_ids Hall st) as [w1 Hloop]
  end.
  rewrite Hloop. simpl.
  match goal with
  | |- context [get_multiple_splunkbase_urls app_ids ?st] =>
      destruct (lookups_stateless app_ids Hall st) as [w2 Hround];
      rewrite (get_multiple_collects _ _ _ _ Hround)
  end.
  exists w2. unfold main_output, heading, rule, closing_rule, urls_label.
  simpl. repeat rewrite <- app_assoc. reflexivity.
Qed.

(** X15: On a server that answers by the URL alone, the main block stops at the
    first identifier whose lookup lets an exception out: that exception
    leaves the main block, which has printed the heading, the rule and the
    reports of the identifiers before, and neither the closing lines nor
    the URL list. *)
Theorem main_stops_at_exception before app_id after s e :
  forallb (returns answer) before = true ->
  fst (info answer app_id) = inl e ->
  exists w,
    main_block (before ++ app_id :: after) s
    = (inl e,
       mkState w
         (stdout s
            ++ [heading; rule]
            ++ flat_map (fun id =>
                           (snd (info answer id)
                            ++ match fst (info answer id) with
                               | inr t => report_lines id t
                               | inl _ => []
                               end)%list) before)).
Proof.
  intros Hbefore Hraise. unfold main_block, bind, print. simpl.
  rewrite report_loop_app. unfold bind.
  match goal with
  | |- context [report_loop before ?st] =>
      destruct (report_loop_stateless before Hbefore st) as [w1 Hloop]
  end.
  rewrite Hloop. simpl. unfold bind. rewrite lookup_stateless.
  pose proof (lookup_table_lines app_id (answer (app_url app_id))
                (answer (release_url app_id))) as Hlines.
  fold (info answer app_id) in Hlines. rewrite Hraise in Hlines.
  rewrite Hraise, Hlines. eexists. simpl.
  rewrite app_nil_r. unfold heading, rule.
  repeat rewrite <- app_assoc. reflexivity.
Qed.

End Stateless.

End Client.

(** ** The requests that are made *)

Section Logged.

Context {W : Type}.
Variable http_get : string -> W -> get_outcome * W.




(** X6: One lookup asks for the app URL of its identifier and then, exactly when
    the app request gave a JSON object, for the release URL; it makes no
    other request. *)
Theorem lookup_requests app_id (s : State (W * list string)) :
  snd (world (snd (get_splunkbase_app_info (logged http_get) app_id s)))
  = (snd (world s)
       ++ app_url app_id
          :: (if asks_release
                   (fst (http_get (app_url app_id) (fst (world s))))
              then [release_url app_id] else []))%list.
Proof.
  rewrite lookup_table_run. simpl.
  unfold world_after, first_outcome, logged. simpl.
  destruct (asks_release (fst (http_get (app_url app_id) (fst (world s)))));
    simpl; [rewrite <- app_assoc |]; reflexivity.
Qed.





End Logged.

(** ** Concrete runs *)

(** The lookup of 1603, both endpoints answering. *)
Lemma app_info_success_witness :
  exists name,
    get_splunkbase_app_info mock_get "1603"
      (start [ok_response app_doc; ok_response release_doc])
    = (inr (name, VStr "4.0.4", VStr lookup_editor_url), start [])
    /\ is_present name = true /\ is_present (VStr "4.0.4") = true.
Proof.
  apply (app_info_success mock_get "1603"
           (start [ok_response app_doc; ok_response release_doc])
           [("title", VStr "Lookup Editor")] (start [ok_response release_doc])
           [("name", VStr "4.0.4")] [VDict [("name", VStr "4.0.3")]] (start [])
           (VStr "4.0.4")); try reflexivity; discriminate.
Defined.

(** C1 as stated fails: an object whose [title] is null passes for a
    well-formed payload, and the name slot comes back absent. *)
Lemma app_info_null_title :
  fetch mock_get (app_url "1603")
    (start [ok_response null_title_doc; ok_response release_doc])
  = (inr null_title_doc, start [ok_response release_doc])
  /\ fetch mock_get (release_url "1603") (start [ok_response release_doc])
     = (inr release_doc, start [])
  /\ ~ (exists name version url s',
          get_splunkbase_app_info mock_get "1603"
            (start [ok_response null_title_doc; ok_response release_doc])
          = (inr (name, version, url), s')
          /\ is_present name = true).
Proof.
  split; [reflexivity | split; [reflexivity |]].
  intros (name & version & url & s' & H & Hname).
  vm_compute in H. inversion H; subst. discriminate.
Qed.

(** The lookup of 1603, the release request ending in a status 500. *)
Lemma release_failure_all_absent_witness :
  get_splunkbase_app_info mock_get "1603"
    (start [ok_response app_doc; server_error])
  = (inr (VNone, VNone, VNone),
     mkState []
       ["Error fetching details for app 1603: "
          ++ server_error_text (release_url "1603")]).
Proof.
  apply (release_failure_all_absent mock_get "1603"
           (start [ok_response app_doc; server_error])
           [("title", VStr "Lookup Editor")] (start [server_error])
           (served (release_url "1603") server_error) []
           (RequestException
              (server_error_text (release_url "1603"))));
    reflexivity.
Defined.

(** C2 as stated fails: after a release request that ends in a status 500
    the name read by the first call is not in the result. *)
Lemma release_failure_loses_name :
  fetch mock_get (app_url "1603") (start [ok_response app_doc; server_error])
  = (inr app_doc, start [server_error])
  /\ request_error (served (release_url "1603") server_error) <> None
  /\ ~ (exists s',
          get_splunkbase_app_info mock_get "1603"
            (start [ok_response app_doc; server_error])
          = (inr (VStr "Lookup Editor", VNone, VNone), s')).
Proof.
  split; [reflexivity | split; [discriminate |]].
  intros (s' & H). vm_compute in H. inversion H.
Qed.

(** C3: the claim does not hold of the code.  An app document that is a JSON
    array makes [.get] raise an [AttributeError], and a release list whose
    element 0 is a number makes the subscript raise a [TypeError]; neither
    is caught, so the exception reaches the caller and no triple is
    returned. *)
Theorem uncaught_exceptions :
  get_splunkbase_app_info mock_get "1603" (start [ok_response (VList [])])
  = (inl (AttributeError "'list' object has no attribute 'get'"), start [])
  /\ get_splunkbase_app_info mock_get "1603"
       (start [ok_response app_doc; ok_response (VList [VInt 1])])
     = (inl (TypeError "'int' object is not subscriptable"), start []).
Proof. split; reflexivity. Qed.

(** C4: the claim does not hold of the code where a lookup lets an
    exception out.  Over the identifiers 1603 and 2, where the app document
    of 2 is a JSON array, the function returns no string: the
    [AttributeError] of the second lookup leaves it, though 1603 has a
    download URL. *)
Theorem multiple_urls_raises :
  get_multiple_splunkbase_urls mock_get ["1603"; "2"]
    (start [ok_response app_doc; ok_response release_doc;
            ok_response (VList [])])
  = (inl (AttributeError "'list' object has no attribute 'get'"), start []).
Proof. reflexivity. Qed.

(** The joined URLs of 1603, 2 and 1603 again, where 2 is not found. *)
Lemma multiple_urls_joined_witness :
  get_multiple_splunkbase_urls mock_get ["1603"; "2"; "1603"]
    (start [ok_response app_doc; ok_response release_doc; not_found;
            ok_response app_doc; ok_response release_doc])
  = (inr (lookup_editor_url ++ "," ++ lookup_editor_url),
     mkState []
       ["Error fetching details for app 2: "
          ++ not_found_text (app_url "2")]).
Proof.
  apply (proj1
           (multiple_urls_joined mock_get ["1603"; "2"; "1603"]
              (start [ok_response app_doc; ok_response release_doc; not_found;
                      ok_response app_doc; ok_response release_doc])
              [(VStr "Lookup Editor", VStr "4.0.4", VStr lookup_editor_url);
               all_absent;
               (VStr "Lookup Editor", VStr "4.0.4", VStr lookup_editor_url)]
              (mkState []
                 ["Error fetching details for app 2: "
                    ++ not_found_text (app_url "2")])
              eq_refl)).
Defined.

(** The lookup of 1603, with an empty release list. *)
Lemma empty_release_keeps_name_witness :
  get_splunkbase_app_info mock_get "1603"
    (start [ok_response app_doc; ok_response (VList [])])
  = (inr (VStr "Lookup Editor", VNone, VNone),
     mkState [] ["Error: Unexpected response structure for app 1603"])
  /\ is_present (VStr "Lookup Editor") = true.
Proof.
  apply (empty_release_keeps_name mock_get "1603"
           (start [ok_response app_doc; ok_response (VList [])])
           [("title", VStr "Lookup Editor")]
           (start [ok_response (VList [])]) (VList []) (start []));
    try reflexivity; [left; reflexivity | discriminate].
Defined.

(** C5 as stated fails: with a null [title], the name slot of the result is
    absent. *)
Lemma empty_release_null_title :
  fetch mock_get (app_url "1603")
    (start [ok_response null_title_doc; ok_response (VList [])])
  = (inr null_title_doc, start [ok_response (VList [])])
  /\ fetch mock_get (release_url "1603") (start [ok_response (VList [])])
     = (inr (VList []), start [])
  /\ ~ (exists name s',
          get_splunkbase_app_info mock_get "1603"
            (start [ok_response null_title_doc; ok_response (VList [])])
          = (inr (name, VNone, VNone), s')
          /\ is_present name = true).
Proof.
  split; [reflexivity | split; [reflexivity |]].
  intros (name & s' & H & Hname).
  vm_compute in H. inversion H; subst. discriminate.
Qed.

(** The lookup of 2, which is not found. *)
Lemma app_failure_all_absent_witness :
  get_splunkbase_app_info mock_get "2" (start [not_found])
  = (inr (VNone, VNone, VNone),
     mkState []
       ["Error fetching details for app 2: "
          ++ not_found_text (app_url "2")]).
Proof.
  apply (app_failure_all_absent mock_get "2" (start [not_found])
           (served (app_url "2") not_found) []
           (RequestException
              (not_found_text (app_url "2"))));
    reflexivity.
Defined.

(** C6 as stated fails: a response with status 300, which is not a 2xx
    status, passes [raise_for_status]; its body is read and the lookup goes
    on to return a full triple. *)
Lemma multiple_choices_is_read :
  (exists r w,
     mock_get (app_url "1603") multiple_choices_script = (inr r, w)
     /\ non_2xx r = true)
  /\ get_splunkbase_app_info mock_get "1603" (start multiple_choices_script)
     = (inr (VStr "Lookup Editor", VStr "4.0.4", VStr lookup_editor_url),
        start [])
  /\ ~ (exists s',
          get_splunkbase_app_info mock_get "1603"
            (start multiple_choices_script)
          = (inr (VNone, VNone, VNone), s')).
Proof.
  split; [| split].
  - eexists _, _. split; reflexivity.
  - reflexivity.
  - intros (s' & H). vm_compute in H. inversion H.
Qed.

(** The lookup of 1603, element 0 of the release list having no [name]. *)
Lemma structure_error_all_absent_witness :
  get_splunkbase_app_info mock_get "1603"
    (start [ok_response app_doc;
            ok_response (VList [VDict [("version", VStr "4.0.4")]])])
  = (inr (VNone, VNone, VNone),
     mkState [] ["Unexpected response structure for app 1603: 'name'"]).
Proof.
  apply (structure_error_all_absent mock_get "1603"
           (start [ok_response app_doc;
                   ok_response (VList [VDict [("version", VStr "4.0.4")]])])
           (KeyError (VStr "name")) (start [])); reflexivity.
Defined.

(** The name slot for 1603, both endpoints answering. *)
Lemma name_slot_is_title_witness :
  exists name version url s',
    get_splunkbase_app_info mock_get "1603"
      (start [ok_response app_doc; ok_response release_doc])
    = (inr (name, version, url), s')
    /\ (forall t,
          dict_lookup "title" [("title", VStr "Lookup Editor")] = Some t ->
          name = t)
    /\ (dict_lookup "title" [("title", VStr "Lookup Editor")] = None ->
        name = VStr "Unknown").
Proof.
  apply (name_slot_is_title mock_get "1603"
           (start [ok_response app_doc; ok_response release_doc])
           [("title", VStr "Lookup Editor")] (start [ok_response release_doc])
           release_doc (start [])); reflexivity.
Defined.

(** C8 as stated fails: the app endpoint answers with an object whose
    [title] is [Lookup Editor], the release request ends in a status 500,
    and the name slot of the result is not that title. *)
Lemma name_slot_lost :
  fetch mock_get (app_url "1603") (start [ok_response app_doc; server_error])
  = (inr app_doc, start [server_error])
  /\ dict_lookup "title" [("title", VStr "Lookup Editor")]
     = Some (VStr "Lookup Editor")
  /\ ~ (exists version url s',
          get_splunkbase_app_info mock_get "1603"
            (start [ok_response app_doc; server_error])
          = (inr (VStr "Lookup Editor", version, url), s')).
Proof.
  split; [reflexivity | split; [reflexivity |]].
  intros (version & url & s' & H). vm_compute in H. inversion H.
Qed.

(** The first of two lookups of 1603 leaves the state [after_first_call]. *)
Lemma first_call_leaves :
  snd (get_splunkbase_app_info mock_get "1603" (start twice_script))
  = after_first_call.
Proof. reflexivity. Qed.

(** Two lookups of 1603 in a row, served the same two responses. *)
Lemma lookup_deterministic_witness :
  fst (get_splunkbase_app_info mock_get "1603" (start twice_script))
  = fst (get_splunkbase_app_info mock_get "1603" after_first_call)
  /\ exists printed,
       stdout (snd (get_splunkbase_app_info mock_get "1603"
                      (start twice_script)))
       = ([] ++ printed)%list
       /\ stdout (snd (get_splunkbase_app_info mock_get "1603"
                         after_first_call))
          = ([msg_unexpected "1603"] ++ printed)%list.
Proof.
  apply (lookup_deterministic mock_get "1603"
           (start twice_script) after_first_call); reflexivity.
Defined.

(** The shape of the full result for 1603. *)
Lemma result_shapes_witness :
  three_shapes (VStr "Lookup Editor", VStr "4.0.4", VStr lookup_editor_url).
Proof.
  apply (result_shapes mock_get "1603"
           (start [ok_response app_doc; ok_response release_doc])
           (VStr "Lookup Editor", VStr "4.0.4", VStr lookup_editor_url)
           (start [])); [reflexivity | discriminate | discriminate].
Defined.

(** C10 as stated fails: with a null [title] and a release to read, the
    result is (absent, present, present). *)
Lemma null_title_shape :
  get_splunkbase_app_info mock_get "1603"
    (start [ok_response null_title_doc; ok_response release_doc])
  = (inr (VNone, VStr "4.0.4", VStr lookup_editor_url), start [])
  /\ ~ three_shapes (VNone, VStr "4.0.4", VStr lookup_editor_url).
Proof.
  split; [reflexivity |].
  unfold three_shapes. intros [H | [H | H]]; discriminate.
Qed.

(** *** Runs for the further properties *)



(** The URL of 1603 is built from its version. *)
Lemma url_follows_version_witness :
  (VStr "4.0.4" = VNone /\ VStr lookup_editor_url = VNone)
  \/ VStr lookup_editor_url = VStr (download_url "1603" (VStr "4.0.4")).
Proof.
  apply (url_follows_version mock_get "1603"
           (start [ok_response app_doc; ok_response release_doc])
           (VStr "Lookup Editor") (VStr "4.0.4") (VStr lookup_editor_url)
           (start [])); reflexivity.
Defined.

(** 1603 is looked up, then the lookup of 2 raises: 7 is not asked for. *)
Lemma multiple_urls_aborts_witness :
  get_multiple_splunkbase_urls mock_get (["1603"] ++ "2" :: ["7"])
    (start [ok_response app_doc; ok_response release_doc;
            ok_response (VList []); ok_response app_doc])
  = (inl (AttributeError "'list' object has no attribute 'get'"),
     start [ok_response app_doc]).
Proof.
  apply (multiple_urls_aborts mock_get ["1603"] "2" ["7"]
           (start [ok_response app_doc; ok_response release_doc;
                   ok_response (VList []); ok_response app_doc])
           [(VStr "Lookup Editor", VStr "4.0.4", VStr lookup_editor_url)]
           (start [ok_response (VList []); ok_response app_doc])
           (AttributeError "'list' object has no attribute 'get'")
           (start [ok_response app_doc])); reflexivity.
Defined.

(** Two identifiers that are not found: the empty string. *)
Lemma multiple_urls_empty_iff_witness :
  fst (get_multiple_splunkbase_urls mock_get ["2"; "3"]
         (start [not_found; not_found])) = inr EmptyString
  <-> Forall (fun t : triple => snd t = VNone) [all_absent; all_absent].
Proof.
  apply (multiple_urls_empty_iff mock_get ["2"; "3"]
           (start [not_found; not_found]) [all_absent; all_absent]
           (mkState []
              ["Error fetching details for app 2: "
                 ++ not_found_text (app_url "2");
               "Error fetching details for app 3: "
                 ++ not_found_text (app_url "3")])); reflexivity.
Defined.

(** An app whose title is the empty string. *)
Lemma falsy_title_reported_as_error_witness :
  report_loop mock_get ["1603"]
    (start [ok_response empty_title_doc; ok_response release_doc])
  = (inr tt,
     mkState [] [nl ++ "App ID: " ++ "1603" ++ " - Error fetching info"])
  /\ get_multiple_splunkbase_urls mock_get ["1603"]
       (start [ok_response empty_title_doc; ok_response release_doc])
     = (inr lookup_editor_url, start []).
Proof.
  apply (falsy_title_reported_as_error mock_get "1603"
           (start [ok_response empty_title_doc; ok_response release_doc])
           [("title", VStr EmptyString)] (start [ok_response release_doc])
           [("name", VStr "4.0.4")] [VDict [("name", VStr "4.0.3")]]
           (start []) (VStr "4.0.4")); reflexivity.
Defined.

(** The main block over 1603 and 2, on a server that knows 1603 alone. *)
Lemma main_on_stateless_server_witness :
  exists w,
    main_block (table_get lookup_editor_only) ["1603"; "2"] (mkState tt [])
    = (inr tt,
       mkState w ([] ++ main_output lookup_editor_only ["1603"; "2"])).
Proof.
  apply (main_on_stateless_server (table_get lookup_editor_only)
           lookup_editor_only (fun _ _ => eq_refl) ["1603"; "2"]
           (mkState tt []) eq_refl).
Defined.

(** Two calls in a row, over 1603 and then over 2, which is not found. *)
Lemma multiple_urls_app_witness :
  get_multiple_splunkbase_urls mock_get (["1603"] ++ ["2"])
    (start [ok_response app_doc; ok_response release_doc; not_found])
  = (inr (join_two lookup_editor_url EmptyString),
     mkState []
       ["Error fetching details for app 2: "
          ++ not_found_text (app_url "2")]).
Proof.
  apply (multiple_urls_app mock_get ["1603"] ["2"]
           (start [ok_response app_doc; ok_response release_doc; not_found])
           lookup_editor_url (start [not_found]) EmptyString
           (mkState []
              ["Error fetching details for app 2: "
                 ++ not_found_text (app_url "2")])); reflexivity.
Defined.

(** The main block over 1603, 9 and 2, on a server that answers an array for
    the app document of 9. *)
Lemma main_stops_at_exception_witness :
  exists w,
    main_block (table_get array_for_nine) (["1603"] ++ "9" :: ["2"])
      (mkState tt [])
    = (inl (AttributeError "'list' object has no attribute 'get'"),
       mkState w
         ([] ++ [heading; rule]
             ++ flat_map (fun id =>
                            (snd (info array_for_nine id)
                             ++ match fst (info array_for_nine id) with
                                | inr t => report_lines id t
                                | inl _ => []
                                end)%list) ["1603"])).
Proof.
  apply (main_stops_at_exception (table_get array_for_nine) array_for_nine
           (fun _ _ => eq_refl) ["1603"] "9" ["2"] (mkState tt [])
           (AttributeError "'list' object has no attribute 'get'"));
    reflexivity.
Defined.
